(** * go-data-transfer: protocol messages and the restart handshake

    A shallow embedding of [message/message.go] (package [message]), of the
    protocol types (package [datatransfer]) and of the manager's restart
    functions (package [impl]), with the properties the specification states
    about them.

    Conventions.  A Go [uint64] is an [N]; a byte slice is a [list byte]; a Go
    string is a [string]; a pointer that may be nil is an [option]; a Go
    [error] result is an [option error] ([None] is nil); a function returning
    [(T, error)] with exactly one of the two set returns a [result T]. *)

From Stdlib Require Import NArith List String Ascii.
From Stdlib.Strings Require Import Byte.
From stdpp Require Import base option list strings gmap pretty.

Local Open Scope string_scope.

(** ** Errors *)

(** Go error values as the sources build them: [xerrors.New(text)] (and an
    [Errorf] without a verb) is [errors_New text]; [xerrors.Errorf("text: %w",
    err)] and [fmt.Errorf("text: %w", err)] wrap [err] under [text]. *)
Inductive error : Type :=
| errors_New (text : string)
| Errorf_w (text : string) (cause : error).

(** [err.Error()] *)
Fixpoint Error_text (e : error) : string :=
  match e with
  | errors_New text => text
  | Errorf_w text cause => text ++ ": " ++ Error_text cause
  end.

Inductive result (A : Type) : Type :=
| Ok (a : A)
| Err (e : error).
Arguments Ok {A} a.
Arguments Err {A} e.

Definition is_Err {A : Type} (r : result A) : Prop :=
  match r with Ok _ => False | Err _ => True end.

#[global] Instance error_eq_dec : EqDecision error.
Proof. solve_decision. Defined.

#[global] Instance byte_eq_dec : EqDecision byte := Byte.byte_eq_dec.

(** ** go-cid *)

(** [cid.Cid] is a struct around one string; [cid.Undef] is its zero value. *)
Module cid.

Record Cid : Type := { str : string }.

Definition Undef : Cid := {| str := "" |}.

#[global] Instance Cid_eq_dec : EqDecision Cid.
Proof. solve_decision. Defined.

End cid.

(** ** Package encoding *)

Module encoding.

(** [encoding.Encode(value)]: the encoded bytes, or an error.  How a value
    is encoded is its own business: a type is [Encodable] when it comes with
    its encoder. *)
Class Encodable (A : Type) : Type := Encode : A -> result (list byte).

End encoding.

(** ** Package datatransfer: the protocol types *)

Module datatransfer.

(** [type TypeIdentifier string] *)
Definition TypeIdentifier : Type := string.

Definition EmptyTypeIdentifier : TypeIdentifier := "".

(** [Registerable]: encodable, with a [Type()] identifier.  [Voucher] and
    [VoucherResult] are this interface under other names. *)
Class Registerable (A : Type) : Type := {
  Registerable_Encodable : encoding.Encodable A;
  Type_ : A -> TypeIdentifier
}.
#[global] Existing Instance Registerable_Encodable.

(** [type Status uint64], an [iota] enumeration. *)
Inductive Status : Type :=
| Requested
| Ongoing
| TransferFinished
| ResponderCompleted
| Completed
| Failed
| Cancelled
| SenderPaused
| ReceiverPaused
| BothPaused
| ResponderCompletedReceiverPaused
| ChannelNotFoundError.

#[global] Instance Status_eq_dec : EqDecision Status.
Proof. solve_decision. Defined.

(** The [uint64] behind each status. *)
Definition Status_code (s : Status) : N :=
  match s with
  | Requested => 0
  | Ongoing => 1
  | TransferFinished => 2
  | ResponderCompleted => 3
  | Completed => 4
  | Failed => 5
  | Cancelled => 6
  | SenderPaused => 7
  | ReceiverPaused => 8
  | BothPaused => 9
  | ResponderCompletedReceiverPaused => 10
  | ChannelNotFoundError => 11
  end%N.

(** [var Statuses = map[Status]string{...}] *)
Definition Statuses (s : Status) : string :=
  match s with
  | Requested => "Requested"
  | Ongoing => "Ongoing"
  | TransferFinished => "TransferFinished"
  | ResponderCompleted => "ResponderCompleted"
  | Completed => "Completed"
  | Failed => "Failed"
  | Cancelled => "Cancelled"
  | SenderPaused => "SenderPaused"
  | ReceiverPaused => "ReceiverPaused"
  | BothPaused => "BothPaused"
  | ResponderCompletedReceiverPaused => "ResponderCompletedReceiverPaused"
  | ChannelNotFoundError => "ChannelNotFoundError"
  end.

(** [type TransferID uint64] *)
Definition TransferID : Type := N.

(** [peer.ID] of libp2p is a string type. *)
Definition peer_ID : Type := string.

Record ChannelID : Type := {
  Initiator : peer_ID;
  ID : TransferID
}.

#[global] Instance ChannelID_eq_dec : EqDecision ChannelID.
Proof. solve_decision. Defined.

#[global] Instance ChannelID_countable : Countable ChannelID :=
  inj_countable'
    (fun c => (Initiator c, ID c))
    (fun p => {| Initiator := p.1; ID := p.2 |})
    (fun c => match c with Build_ChannelID _ _ => eq_refl end).

(** [fmt.Sprintf("%s-%d", c.Initiator, c.ID)] *)
Definition ChannelID_String (c : ChannelID) : string :=
  Initiator c ++ "-" ++ pretty (ID c).

(** [var ErrChannelNotFound = errors.New("channel not found")] *)
Definition ErrChannelNotFound : error := errors_New "channel not found".

(** [var ErrRetryValidation = errors.New("Retry Revalidation")] *)
Definition ErrRetryValidation : error := errors_New "Retry Revalidation".

(** [type EventCode int], an [iota] enumeration. *)
Inductive EventCode : Type :=
| Open
| Accept
| Progress
| Cancel
| Error
| NewVoucher
| NewVoucherResult
| PauseSender
| ResumeSender
| PauseReceiver
| ResumeReceiver
| FinishTransfer
| CompleteResponder
| Complete.

#[global] Instance EventCode_eq_dec : EqDecision EventCode.
Proof. solve_decision. Defined.

(** The [int] behind each event code. *)
Definition EventCode_code (e : EventCode) : N :=
  match e with
  | Open => 0
  | Accept => 1
  | Progress => 2
  | Cancel => 3
  | Error => 4
  | NewVoucher => 5
  | NewVoucherResult => 6
  | PauseSender => 7
  | ResumeSender => 8
  | PauseReceiver => 9
  | ResumeReceiver => 10
  | FinishTransfer => 11
  | CompleteResponder => 12
  | Complete => 13
  end%N.

(** [var Events = map[EventCode]string{...}] *)
Definition Events (e : EventCode) : string :=
  match e with
  | Open => "Open"
  | Accept => "Accept"
  | Progress => "Progress"
  | Cancel => "Cancel"
  | Error => "Error"
  | NewVoucher => "NewVoucher"
  | NewVoucherResult => "NewVoucherResult"
  | PauseSender => "PauseSender"
  | ResumeSender => "ResumeSender"
  | PauseReceiver => "PauseReceiver"
  | ResumeReceiver => "ResumeReceiver"
  | FinishTransfer => "FinishTransfer"
  | CompleteResponder => "CompleteResponder"
  | Complete => "Complete"
  end.

(** A string without the character [-]. *)
Fixpoint no_dash (s : string) : Prop :=
  match s with
  | EmptyString => True
  | String c s' => c <> "-"%char /\ no_dash s'
  end.

End datatransfer.

(** ** Package message *)

Module message.

Import cid encoding.

(** [cborgen.Deferred]: raw bytes kept undecoded. *)
Record Deferred : Type := { Raw : list byte }.

#[global] Instance Deferred_eq_dec : EqDecision Deferred.
Proof. solve_decision. Defined.

(** The request struct, with the fields the constructors of [message.go]
    set; a field a composite literal leaves out has Go's zero value. *)
Module trq.
Record transferRequest : Type := {
  BCid : option Cid;
  Canc : bool;
  Paus : bool;
  Pull : bool;
  Updt : bool;
  Stor : option Deferred;
  Vouch : option Deferred;
  VTyp : datatransfer.TypeIdentifier;
  XferID : N
}.
End trq.
Export trq (transferRequest).

(** The response struct, likewise. *)
Module trsp.
Record transferResponse : Type := {
  Acpt : bool;
  Canc : bool;
  Paus : bool;
  Updt : bool;
  VRes : option Deferred;
  VTyp : datatransfer.TypeIdentifier;
  XferID : N
}.
End trsp.
Export trsp (transferResponse).

#[global] Instance transferRequest_eq_dec : EqDecision transferRequest.
Proof. solve_decision. Defined.

#[global] Instance transferResponse_eq_dec : EqDecision transferResponse.
Proof. solve_decision. Defined.

Section Constructors.

Context {Voucher Node VoucherResult : Type}.
Context `{!Encodable Voucher} `{!Encodable Node} `{!Encodable VoucherResult}.

(** [NewRequest] generates a new request for the data transfer protocol. *)
Definition NewRequest (id : datatransfer.TransferID) (isPull : bool)
    (vtype : datatransfer.TypeIdentifier) (voucher : Voucher)
    (baseCid : Cid) (selector : Node) : result transferRequest :=
  match Encode voucher with
  | Err err => Err (Errorf_w "Creating request" err)
  | Ok vbytes =>
    if decide (baseCid = Undef) then Err (errors_New "base CID must be defined")
    else
      match Encode selector with
      | Err _ => Err (errors_New "Error encoding selector")
      | Ok selBytes =>
        Ok {| trq.BCid := Some baseCid;
              trq.Canc := false;
              trq.Paus := false;
              trq.Pull := isPull;
              trq.Updt := false;
              trq.Stor := Some {| Raw := selBytes |};
              trq.Vouch := Some {| Raw := vbytes |};
              trq.VTyp := vtype;
              trq.XferID := id |}
      end
  end.

(** [CancelRequest] generates a request to cancel an in progress request. *)
Definition CancelRequest (id : datatransfer.TransferID) : transferRequest :=
  {| trq.BCid := None;
     trq.Canc := true;
     trq.Paus := false;
     trq.Pull := false;
     trq.Updt := false;
     trq.Stor := None;
     trq.Vouch := None;
     trq.VTyp := datatransfer.EmptyTypeIdentifier;
     trq.XferID := id |}.

(** [UpdateRequest] generates a new request update. *)
Definition UpdateRequest (id : datatransfer.TransferID) (isPaused : bool)
    (vtype : datatransfer.TypeIdentifier) (voucher : Voucher)
  : result transferRequest :=
  match Encode voucher with
  | Err err => Err (Errorf_w "Creating request" err)
  | Ok vbytes =>
    Ok {| trq.BCid := None;
          trq.Canc := false;
          trq.Paus := isPaused;
          trq.Pull := false;
          trq.Updt := true;
          trq.Stor := None;
          trq.Vouch := Some {| Raw := vbytes |};
          trq.VTyp := vtype;
          trq.XferID := id |}
  end.

(** [NewResponse] builds a new data transfer response. *)
Definition NewResponse (id : datatransfer.TransferID) (accepted isUpdate isPaused : bool)
    (voucherResultType : datatransfer.TypeIdentifier) (voucherResult : VoucherResult)
  : result transferResponse :=
  match Encode voucherResult with
  | Err err => Err (Errorf_w "Creating request" err)
  | Ok vbytes =>
    Ok {| trsp.Acpt := accepted;
          trsp.Canc := false;
          trsp.Paus := isPaused;
          trsp.Updt := isUpdate;
          trsp.VRes := Some {| Raw := vbytes |};
          trsp.VTyp := voucherResultType;
          trsp.XferID := id |}
  end.

(** [CancelResponse] makes a new cancel response message. *)
Definition CancelResponse (id : datatransfer.TransferID) : transferResponse :=
  {| trsp.Acpt := false;
     trsp.Canc := true;
     trsp.Paus := false;
     trsp.Updt := false;
     trsp.VRes := None;
     trsp.VTyp := datatransfer.EmptyTypeIdentifier;
     trsp.XferID := id |}.

End Constructors.

(** The requests and the responses that the constructors of [message.go]
    return. *)
Section Constructed.

Context {Voucher Node VoucherResult : Type}.
Context `{!Encodable Voucher} `{!Encodable Node} `{!Encodable VoucherResult}.

Inductive constructed_request : transferRequest -> Prop :=
| by_NewRequest id isPull vtype (voucher : Voucher) baseCid (selector : Node) r :
    NewRequest id isPull vtype voucher baseCid selector = Ok r ->
    constructed_request r
| by_CancelRequest id :
    constructed_request (CancelRequest id)
| by_UpdateRequest id isPaused vtype (voucher : Voucher) r :
    UpdateRequest id isPaused vtype voucher = Ok r ->
    constructed_request r.

Inductive constructed_response : transferResponse -> Prop :=
| by_NewResponse id accepted isUpdate isPaused vtype (voucherResult : VoucherResult) r :
    NewResponse id accepted isUpdate isPaused vtype voucherResult = Ok r ->
    constructed_response r
| by_CancelResponse id :
    constructed_response (CancelResponse id).

End Constructed.

(** *** The interfaces *)

(** A value of interface type [DataTransferMessage] as [FromNet] returns it:
    a pointer, possibly nil, to one of the two structs. *)
Inductive Message : Type :=
| IfaceRequest (p : option transferRequest)
| IfaceResponse (p : option transferResponse).

#[global] Instance Message_eq_dec : EqDecision Message.
Proof. solve_decision. Defined.





(** The observers of [DataTransferMessage] (the decoding methods and the
    marshallers apart, which come with the wire format below). *)
Class DataTransferMessage (M : Type) : Type := {
  IsRequest : M -> bool;
  IsUpdate : M -> bool;
  IsPaused : M -> bool;
  IsCancel : M -> bool;
  TransferID : M -> datatransfer.TransferID
}.

Class DataTransferRequest (M : Type) `{!DataTransferMessage M} : Type := {
  IsPull : M -> bool;
  VoucherType : M -> datatransfer.TypeIdentifier;
  EmptyVoucher : M -> bool;
  BaseCid : M -> Cid
}.

Class DataTransferResponse (M : Type) `{!DataTransferMessage M} : Type := {
  Accepted : M -> bool;
  VoucherResultType : M -> datatransfer.TypeIdentifier;
  EmptyVoucherResult : M -> bool
}.

(** Modelled from the spec: the methods of [transferRequest] and
    [transferResponse], which [message.go] declares in its interfaces and
    does not define.  Each observer reads the field the constructors of
    [message.go] set for it (section 4.2: every message has a TransferID and
    the flags; requests have IsPull and BaseCID); an empty type identifier
    means that no voucher is present (section 3); a request without a base
    CID reports the zero CID. *)
#[global] Instance transferRequest_message : DataTransferMessage transferRequest := {
  IsRequest _ := true;
  IsUpdate := trq.Updt;
  IsPaused := trq.Paus;
  IsCancel := trq.Canc;
  TransferID := trq.XferID
}.

#[global] Instance transferRequest_request : DataTransferRequest transferRequest := {
  IsPull := trq.Pull;
  VoucherType := trq.VTyp;
  EmptyVoucher r := bool_decide (trq.VTyp r = datatransfer.EmptyTypeIdentifier);
  BaseCid r := default Undef (trq.BCid r)
}.

#[global] Instance transferResponse_message : DataTransferMessage transferResponse := {
  IsRequest _ := false;
  IsUpdate := trsp.Updt;
  IsPaused := trsp.Paus;
  IsCancel := trsp.Canc;
  TransferID := trsp.XferID
}.

#[global] Instance transferResponse_response : DataTransferResponse transferResponse := {
  Accepted := trsp.Acpt;
  VoucherResultType := trsp.VTyp;
  EmptyVoucherResult r := bool_decide (trsp.VTyp r = datatransfer.EmptyTypeIdentifier)
}.

(** *** The envelope and [FromNet] *)

(** Modelled from the spec: the envelope struct [transferMessage], which
    [FromNet] uses and [message.go] does not declare.  Section 4.2: a single envelope
    deserializes to either a request or a response, distinguished by a
    boolean flag.  [FromNet] reads its [Request] and [Response] fields and
    calls its [IsRequest] method. *)
Record transferMessage : Type := {
  IsRq : bool;
  Request : option transferRequest;
  Response : option transferResponse
}.

(** [transferMessage{}] *)
Definition transferMessage_zero : transferMessage :=
  {| IsRq := false; Request := None; Response := None |}.

Definition transferMessage_IsRequest (tm : transferMessage) : bool := IsRq tm.

(** An [io.Reader] is the bytes it will deliver. *)
Definition io_Reader : Type := list byte.

Section FromNet.

(** [UnmarshalCBOR] fills its receiver from the reader, field by field, and
    returns an error or nil: what it has set before an error stays set. *)
Variable UnmarshalCBOR : transferMessage -> io_Reader -> transferMessage * option error.

(** [FromNet] can read a network stream to deserialize a message. *)
Definition FromNet (r : io_Reader) : Message * option error :=
  let '(tresp, err) := UnmarshalCBOR transferMessage_zero r in
  if transferMessage_IsRequest tresp then (IfaceRequest (Request tresp), None)
  else (IfaceResponse (Response tresp), err).

End FromNet.

(** *** The wire format *)

(** Modelled from the spec: a reader for the envelope, standing for the
    [UnmarshalCBOR] that [message.go] declares in its interface and does not
    define.  Section 6: the envelope is a tagged record with a boolean
    IsRequest flag, in a self-describing binary encoding with deterministic
    field ordering; vouchers and selectors are carried as length-prefixed
    opaque bytes.  [message.go] says the encoding is CBOR.  Here each struct
    is read as a CBOR array of the fields that the constructors of
    [message.go] set; CBOR null is a nil pointer; a deferred blob is a byte
    string; a CID is tag 42 around a byte string.  It serves to run
    [FromNet] on bytes; nothing is proved of the format itself. *)
Module wire.

Definition ErrUnexpectedEOF : error := errors_New "unexpected EOF".

(** A reader consumes a prefix of the input or fails. *)
Definition reader (A : Type) : Type := list byte -> result (A * list byte).

Definition rret {A : Type} (a : A) : reader A := fun bs => Ok (a, bs).

Definition rbind {A B : Type} (r : reader A) (k : A -> reader B) : reader B :=
  fun bs =>
    match r bs with
    | Err e => Err e
    | Ok (a, rest) => k a rest
    end.

Definition rfail {A : Type} (text : string) : reader A :=
  fun _ => Err (errors_New text).

Notation "x <- r ;; k" := (rbind r (fun x => k))
  (at level 100, r at next level, right associativity).

Definition be_value (bs : list byte) : N :=
  fold_left (fun acc b => (acc * 256 + Byte.to_N b)%N) bs 0%N.

Definition take_bytes (n : nat) : reader (list byte) :=
  fun bs =>
    if decide (n <= length bs) then Ok (take n bs, drop n bs)
    else Err ErrUnexpectedEOF.

Definition get_be (k : nat) : reader N :=
  bs <- take_bytes k ;; rret (be_value bs).

(** The head of a data item: major type (three bits) and argument. *)
Definition get_head : reader (N * N) :=
  fun bs =>
    match bs with
    | [] => Err ErrUnexpectedEOF
    | b :: rest =>
      let major := (Byte.to_N b / 32)%N in
      let low := (Byte.to_N b mod 32)%N in
      if (low <? 24)%N then Ok ((major, low), rest)
      else if (low =? 24)%N then (v <- get_be 1 ;; rret (major, v)) rest
      else if (low =? 25)%N then (v <- get_be 2 ;; rret (major, v)) rest
      else if (low =? 26)%N then (v <- get_be 4 ;; rret (major, v)) rest
      else if (low =? 27)%N then (v <- get_be 8 ;; rret (major, v)) rest
      else Err (errors_New "invalid header")
    end.

(** A head of the expected major type; its argument. *)
Definition get_major (major : N) : reader N :=
  h <- get_head ;;
  if (h.1 =? major)%N then rret h.2 else rfail "wrong major type".

Definition get_uint : reader N := get_major 0.

Definition get_bytes : reader (list byte) :=
  n <- get_major 2 ;; take_bytes (N.to_nat n).

Definition get_text : reader string :=
  n <- get_major 3 ;; bs <- take_bytes (N.to_nat n) ;; rret (string_of_list_byte bs).

Definition get_array (n : N) : reader unit :=
  m <- get_major 4 ;;
  if (m =? n)%N then rret tt else rfail "wrong number of fields".

Definition get_bool : reader bool :=
  fun bs =>
    match bs with
    | [] => Err ErrUnexpectedEOF
    | xf5 :: rest => Ok (true, rest)
    | xf4 :: rest => Ok (false, rest)
    | _ :: _ => Err (errors_New "booleans must be major type 7")
    end.

(** A pointer: CBOR null ([0xf6]) for nil, the value otherwise. *)
Definition get_pointer {A : Type} (get : reader A) : reader (option A) :=
  fun bs =>
    match bs with
    | [] => Err ErrUnexpectedEOF
    | b :: rest =>
      if decide (b = xf6) then Ok (None, rest)
      else (a <- get ;; rret (Some a)) bs
    end.

Definition get_Cid : reader Cid :=
  t <- get_major 6 ;;
  if (t =? 42)%N then bs <- get_bytes ;; rret {| str := string_of_list_byte bs |}
  else rfail "wrong tag for a CID".

Definition get_Deferred : reader Deferred :=
  bs <- get_bytes ;; rret {| Raw := bs |}.

(** The reader for a non-nil [transferRequest]. *)
Definition get_transferRequest : reader transferRequest :=
  _ <- get_array 9 ;;
  bcid <- get_pointer get_Cid ;;
  canc <- get_bool ;;
  paus <- get_bool ;;
  pull <- get_bool ;;
  updt <- get_bool ;;
  stor <- get_pointer get_Deferred ;;
  vouch <- get_pointer get_Deferred ;;
  vtyp <- get_text ;;
  xferid <- get_uint ;;
  rret {| trq.BCid := bcid; trq.Canc := canc; trq.Paus := paus; trq.Pull := pull;
          trq.Updt := updt; trq.Stor := stor; trq.Vouch := vouch; trq.VTyp := vtyp;
          trq.XferID := xferid |}.

(** The reader for a non-nil [transferResponse]. *)
Definition get_transferResponse : reader transferResponse :=
  _ <- get_array 7 ;;
  acpt <- get_bool ;;
  canc <- get_bool ;;
  paus <- get_bool ;;
  updt <- get_bool ;;
  vres <- get_pointer get_Deferred ;;
  vtyp <- get_text ;;
  xferid <- get_uint ;;
  rret {| trsp.Acpt := acpt; trsp.Canc := canc; trsp.Paus := paus; trsp.Updt := updt;
          trsp.VRes := vres; trsp.VTyp := vtyp; trsp.XferID := xferid |}.

(** [transferMessage.UnmarshalCBOR]: the fields are set one after the other,
    and the first failure returns with the fields set so far. *)
Definition UnmarshalCBOR (t : transferMessage) (r : io_Reader) : transferMessage * option error :=
  match get_array 3 r with
  | Err e => (t, Some e)
  | Ok (_, r1) =>
    match get_bool r1 with
    | Err e => (t, Some e)
    | Ok (isrq, r2) =>
      let t1 := {| IsRq := isrq; Request := Request t; Response := Response t |} in
      match get_pointer get_transferRequest r2 with
      | Err e => (t1, Some e)
      | Ok (req, r3) =>
        let t2 := {| IsRq := isrq; Request := req; Response := Response t |} in
        match get_pointer get_transferResponse r3 with
        | Err e => (t2, Some e)
        | Ok (resp, _) => ({| IsRq := isrq; Request := req; Response := resp |}, None)
        end
      end
    end
  end.

End wire.

End message.

(** ** Package channels: channel state and the channel store *)

Module channels.

Import cid.

(** A channel's state, as the [ChannelState] interface of package
    [datatransfer] and the calls of the restart functions observe it: one
    field per observer ([ChannelID] and [ReceivedCids] are the two that the
    restart functions call beyond the interface declaration).  [Voucher] is
    the channel's first voucher, never nil. *)
Module chst.
Record ChannelState {VoucherT NodeT : Type} : Type := {
  ChannelID : datatransfer.ChannelID;
  BaseCID : Cid;
  Selector : NodeT;
  Voucher : VoucherT;
  Sender : datatransfer.peer_ID;
  Recipient : datatransfer.peer_ID;
  TotalSize : N;
  Status : datatransfer.Status;
  Sent : N;
  Received : N;
  Message : string;
  ReceivedCids : list Cid
}.
Arguments ChannelState : clear implicits.
End chst.
Export chst (ChannelState).

Section Store.

Context {VoucherT NodeT : Type}.
Abbreviation ChannelState := (ChannelState VoucherT NodeT).

(** Modelled from the spec: [OtherParty], which the [Channel] interface
    declares without an implementation.  Its declaration says: it returns
    the opposite party in the channel to the passed in party. *)
Definition OtherParty (c : ChannelState) (thisParty : datatransfer.peer_ID)
  : datatransfer.peer_ID :=
  if decide (thisParty = chst.Sender c) then chst.Recipient c else chst.Sender c.

(** Modelled from the spec: [IsChannelTerminated] of package [channels],
    which the restart functions call and do not define.  Section 3: a
    channel is terminal exactly when its status is Completed, Failed or
    Cancelled. *)
Definition IsChannelTerminated (st : datatransfer.Status) : bool :=
  match st with
  | datatransfer.Completed | datatransfer.Failed | datatransfer.Cancelled => true
  | _ => false
  end.

(** Modelled from the spec: the channel store of package [channels], which
    the restart functions call and do not define.  Section 4.3: it owns a
    mapping from ChannelID to ChannelState;
    [GetByID] returns the state or NotFound; [Error] moves any non-terminal
    channel to Failed and stores the diagnostic, and fails on a terminal
    channel (AlreadyTerminated) or an unknown one (NotFound). *)
Definition GetByID (store : gmap datatransfer.ChannelID ChannelState)
    (chid : datatransfer.ChannelID) : result ChannelState :=
  match store !! chid with
  | Some c => Ok c
  | None => Err datatransfer.ErrChannelNotFound
  end.

Definition ErrAlreadyTerminated : error := errors_New "channel is already terminated".

Definition fail_channel (c : ChannelState) (reason : error) : ChannelState :=
  {| chst.ChannelID := chst.ChannelID c;
     chst.BaseCID := chst.BaseCID c;
     chst.Selector := chst.Selector c;
     chst.Voucher := chst.Voucher c;
     chst.Sender := chst.Sender c;
     chst.Recipient := chst.Recipient c;
     chst.TotalSize := chst.TotalSize c;
     chst.Status := datatransfer.Failed;
     chst.Sent := chst.Sent c;
     chst.Received := chst.Received c;
     chst.Message := Error_text reason;
     chst.ReceivedCids := chst.ReceivedCids c |}.

Definition Error (store : gmap datatransfer.ChannelID ChannelState)
    (chid : datatransfer.ChannelID) (reason : error)
  : gmap datatransfer.ChannelID ChannelState * option error :=
  match store !! chid with
  | None => (store, Some datatransfer.ErrChannelNotFound)
  | Some c =>
    if IsChannelTerminated (chst.Status c) then (store, Some ErrAlreadyTerminated)
    else (<[chid := fail_channel c reason]> store, None)
  end.

End Store.

End channels.

(** ** Package impl: the manager's restart functions *)

Module impl.

Import cid encoding channels.

Inductive ChannelDataTransferType : Type :=
| ManagerPeerCreatePull
| ManagerPeerCreatePush
| ManagerPeerReceivePull
| ManagerPeerReceivePush.

(** The restart functions are written against the message package that has
    restart messages: its [NewRequest] takes [isRestart] before [isPull], and
    it has [RestartExistingChannelRequest].  That package is not the
    [message.go] above, so its two constructors and the [BaseCid] observer of
    its request interface are an interface here. *)
Class MessageAPI (VoucherT NodeT Request : Type) : Type := {
  NewRequest : datatransfer.TransferID -> bool -> bool -> datatransfer.TypeIdentifier ->
               VoucherT -> Cid -> NodeT -> result Request;
  RestartExistingChannelRequest : datatransfer.ChannelID -> Request;
  BaseCid : Request -> Cid
}.

(** The calls the manager makes on its network and its transport, in the
    order it makes them.  [Unprotect] is the network's other connection
    call (section 4.6); [Configure] is the call of a transport configurer. *)
Inductive Call {VoucherT NodeT Request : Type} : Type :=
| Protect (p : datatransfer.peer_ID) (tag : string)
| Unprotect (p : datatransfer.peer_ID) (tag : string)
| SendMessage (p : datatransfer.peer_ID) (req : Request)
| OpenChannel (p : datatransfer.peer_ID) (chid : datatransfer.ChannelID) (root : Cid)
    (selector : NodeT) (doNotSendCids : list Cid) (req : Request)
| Configure (chid : datatransfer.ChannelID) (voucher : VoucherT).
Arguments Call : clear implicits.

(** What a manager method can change: the channel store, and the calls made
    so far (latest last). *)
Record World {VoucherT NodeT Request : Type} : Type := {
  store : gmap datatransfer.ChannelID (ChannelState VoucherT NodeT);
  calls : list (Call VoucherT NodeT Request)
}.
Arguments World : clear implicits.

(** The manager: its own peer id, and how its collaborators answer.  The
    methods [decodeVoucher] (with the manager's registry of validated types)
    and [validateVoucher], which the restart functions call and do not
    define, are fields, as are the registry of transport configurers and the
    results of the network's [SendMessage] and of the transport's
    [OpenChannel].  A [context.Context] argument is left out. *)
Record manager {VoucherT NodeT Request : Type} : Type := {
  peerID : datatransfer.peer_ID;
  decodeVoucher : Request -> result VoucherT;
  validateVoucher : datatransfer.peer_ID -> Request -> bool -> Cid -> NodeT -> option error;
  transportConfigurers_Processor : datatransfer.TypeIdentifier -> bool;
  SendMessage_result : datatransfer.peer_ID -> Request -> option error;
  OpenChannel_result : datatransfer.peer_ID -> datatransfer.ChannelID -> Cid -> NodeT ->
                       list Cid -> Request -> option error
}.
Arguments manager : clear implicits.

Section Manager.

Context {VoucherT NodeT Request : Type}.
Context `{!datatransfer.Registerable VoucherT} `{!MessageAPI VoucherT NodeT Request}.

Abbreviation ChannelState := (ChannelState VoucherT NodeT).
Abbreviation World := (World VoucherT NodeT Request).
Abbreviation manager := (manager VoucherT NodeT Request).

(** A manager method: from the world before to a result and the world after. *)
Definition M (A : Type) : Type := World -> A * World.

Definition mreturn {A : Type} (a : A) : M A := fun w => (a, w).

Definition mbind {A B : Type} (c : M A) (k : A -> M B) : M B :=
  fun w => let '(a, w') := c w in k a w'.

Notation "x <~ c ;; k" := (mbind c (fun x => k))
  (at level 100, c at next level, right associativity).

Definition call (c : Call VoucherT NodeT Request) : M unit :=
  fun w => (tt, {| store := store w; calls := calls w ++ [c] |}).

(** [m.channels.GetByID(ctx, chid)] *)
Definition channels_GetByID (chid : datatransfer.ChannelID) : M (result ChannelState) :=
  fun w => (GetByID (store w) chid, w).

(** [m.channels.Error(chid, err)] *)
Definition channels_Error (chid : datatransfer.ChannelID) (err : error) : M (option error) :=
  fun w =>
    let '(s, r) := Error (store w) chid err in
    (r, {| store := s; calls := calls w |}).

(** [m.dataTransferNetwork.Protect(id, tag)] *)
Definition dataTransferNetwork_Protect (p : datatransfer.peer_ID) (tag : string) : M unit :=
  call (Protect p tag).

(** [m.dataTransferNetwork.SendMessage(ctx, p, req)] *)
Definition dataTransferNetwork_SendMessage (m : manager)
    (p : datatransfer.peer_ID) (req : Request) : M (option error) :=
  _ <~ call (SendMessage p req) ;; mreturn (SendMessage_result m p req).

(** [m.transport.OpenChannel(ctx, p, chid, root, selector, doNotSendCids, req)] *)
Definition transport_OpenChannel (m : manager) (p : datatransfer.peer_ID)
    (chid : datatransfer.ChannelID) (root : Cid) (selector : NodeT)
    (doNotSendCids : list Cid) (req : Request) : M (option error) :=
  _ <~ call (OpenChannel p chid root selector doNotSendCids req) ;;
  mreturn (OpenChannel_result m p chid root selector doNotSendCids req).

(** The lookup of a transport configurer and its call when there is one. *)
Definition configureTransport (m : manager) (chid : datatransfer.ChannelID)
    (voucher : VoucherT) : M unit :=
  if transportConfigurers_Processor m (datatransfer.Type_ voucher)
  then call (Configure chid voucher)
  else mreturn tt.

Definition validateRestartVoucher (m : manager) (channel : ChannelState) (isPull : bool)
  : option error :=
  let chid := chst.ChannelID channel in
  match NewRequest (datatransfer.ID chid) false isPull
          (datatransfer.Type_ (chst.Voucher channel)) (chst.Voucher channel)
          (chst.BaseCID channel) (chst.Selector channel) with
  | Err err => Some err
  | Ok req =>
    match validateVoucher m (OtherParty channel (peerID m)) req isPull
            (chst.BaseCID channel) (chst.Selector channel) with
    | Some err => Some err
    | None => None
    end
  end.

Definition restartManagerPeerReceivePush (m : manager) (channel : ChannelState)
  : M (option error) :=
  match validateRestartVoucher m channel false with
  | Some err => mreturn (Some (Errorf_w "failed to restart channel, validation error" err))
  | None =>
    let req := RestartExistingChannelRequest (chst.ChannelID channel) in
    dataTransferNetwork_SendMessage m (OtherParty channel (peerID m)) req
  end.

Definition restartManagerPeerReceivePull (m : manager) (channel : ChannelState)
  : M (option error) :=
  match validateRestartVoucher m channel true with
  | Some err => mreturn (Some (Errorf_w "failed to restart channel, validation error" err))
  | None =>
    let req := RestartExistingChannelRequest (chst.ChannelID channel) in
    dataTransferNetwork_SendMessage m (OtherParty channel (peerID m)) req
  end.

Definition openPushRestartChannel (m : manager) (channel : ChannelState)
  : M (option error) :=
  let selector := chst.Selector channel in
  let voucher := chst.Voucher channel in
  let baseCid := chst.BaseCID channel in
  let requestTo := OtherParty channel (peerID m) in
  let chid := chst.ChannelID channel in
  match NewRequest (datatransfer.ID chid) true false (datatransfer.Type_ voucher)
          voucher baseCid selector with
  | Err err => mreturn (Some err)
  | Ok req =>
    _ <~ configureTransport m chid voucher ;;
    _ <~ dataTransferNetwork_Protect requestTo (datatransfer.ChannelID_String chid) ;;
    r <~ dataTransferNetwork_SendMessage m requestTo req ;;
    match r with
    | Some err =>
      let err := Errorf_w "Unable to send request" err in
      _ <~ channels_Error chid err ;;
      mreturn (Some err)
    | None => mreturn None
    end
  end.

Definition openPullRestartChannel (m : manager) (channel : ChannelState)
  : M (option error) :=
  let selector := chst.Selector channel in
  let voucher := chst.Voucher channel in
  let baseCid := chst.BaseCID channel in
  let requestTo := OtherParty channel (peerID m) in
  let chid := chst.ChannelID channel in
  match NewRequest (datatransfer.ID chid) true true (datatransfer.Type_ voucher)
          voucher baseCid selector with
  | Err err => mreturn (Some err)
  | Ok req =>
    _ <~ configureTransport m chid voucher ;;
    _ <~ dataTransferNetwork_Protect requestTo (datatransfer.ChannelID_String chid) ;;
    r <~ transport_OpenChannel m requestTo chid baseCid selector
           (chst.ReceivedCids channel) req ;;
    match r with
    | Some err =>
      let err := Errorf_w "Unable to send request" err in
      _ <~ channels_Error chid err ;;
      mreturn (Some err)
    | None => mreturn None
    end
  end.

Definition validateRestartRequest (m : manager) (otherPeer : datatransfer.peer_ID)
    (chid : datatransfer.ChannelID) (req : Request) : M (option error) :=
  r <~ channels_GetByID chid ;;
  match r with
  | Err err => mreturn (Some err)
  | Ok channel =>
    if IsChannelTerminated (chst.Status channel)
    then mreturn (Some (errors_New "channel is already terminated"))
    else if negb (bool_decide (datatransfer.Initiator (chst.ChannelID channel) = otherPeer))
    then mreturn (Some (errors_New "other peer is not the initiator of the channel"))
    else if negb (bool_decide (BaseCid req = chst.BaseCID channel))
    then mreturn (Some (errors_New "base cid does not match"))
    else
      match decodeVoucher m req with
      | Err err => mreturn (Some (Errorf_w "failed to decode request voucher" err))
      | Ok reqVoucher =>
        if negb (bool_decide (datatransfer.Type_ reqVoucher =
                              datatransfer.Type_ (chst.Voucher channel)))
        then mreturn (Some (errors_New "channel and request voucher types do not match"))
        else
          match Encode reqVoucher with
          | Err _ => mreturn (Some (errors_New "failed to encode request voucher"))
          | Ok reqBz =>
            match Encode (chst.Voucher channel) with
            | Err _ => mreturn (Some (errors_New "failed to encode channel voucher"))
            | Ok channelBz =>
              if negb (bool_decide (reqBz = channelBz))
              then mreturn (Some (errors_New "channel and request vouchers do not match"))
              else mreturn None
            end
          end
      end
  end.

End Manager.

End impl.

(** What [validateRestartRequest] reads of a channel: whether it is
    terminated, its initiator, its base CID and its voucher. *)
Definition restart_view {VoucherT NodeT : Type} (c : channels.chst.ChannelState VoucherT NodeT)
  : bool * datatransfer.peer_ID * cid.Cid * VoucherT :=
  (channels.IsChannelTerminated (channels.chst.Status c),
   datatransfer.Initiator (channels.chst.ChannelID c),
   channels.chst.BaseCID c,
   channels.chst.Voucher c).

(** A store that files every channel under the channel's own id. *)
Definition keyed_by_ChannelID {VoucherT NodeT : Type}
    (store : gmap datatransfer.ChannelID (channels.chst.ChannelState VoucherT NodeT)) : bool :=
  forallb (fun kc => bool_decide (channels.chst.ChannelID kc.2 = kc.1)) (map_to_list store).

(** Counting the connection calls made under one tag. *)
Section Counting.

Context {VoucherT NodeT Request : Type}.

Definition is_Protect (tag : string) (c : impl.Call VoucherT NodeT Request) : bool :=
  match c with
  | impl.Protect _ t => bool_decide (t = tag)
  | _ => false
  end.

Fixpoint count_calls (f : impl.Call VoucherT NodeT Request -> bool)
    (cs : list (impl.Call VoucherT NodeT Request)) : nat :=
  match cs with
  | [] => 0
  | c :: cs' => (if f c then 1 else 0) + count_calls f cs'
  end.

End Counting.

(** ** A concrete manager, for the examples *)

Module example.

Import cid encoding channels impl.

(** A voucher is a type identifier and bytes; it encodes to its bytes, and
    one of type ["broken"] does not encode. *)
Record voucher : Type := { vtype : datatransfer.TypeIdentifier; vbytes : list byte }.

#[global] Instance voucher_Encodable : Encodable voucher :=
  fun v => if decide (vtype v = "broken") then Err (errors_New "cannot encode")
           else Ok (vbytes v).

#[global] Instance voucher_Registerable : datatransfer.Registerable voucher :=
  {| datatransfer.Registerable_Encodable := voucher_Encodable;
     datatransfer.Type_ := vtype |}.

(** A selector node is its own encoding. *)
Definition node : Type := list byte.

#[global] Instance node_Encodable : Encodable node := fun n => Ok n.

(** A request of the message package with restart messages: a request of
    [message.go] with the restart flag beside it, or a request to restart an
    existing channel. *)
Inductive request : Type :=
| Request (isRestart : bool) (r : message.trq.transferRequest)
| RestartExisting (chid : datatransfer.ChannelID).

#[global] Instance request_MessageAPI : MessageAPI voucher node request :=
  {| NewRequest id isRestart isPull vt v baseCid selector :=
       match message.NewRequest id isPull vt v baseCid selector with
       | Ok r => Ok (Request isRestart r)
       | Err e => Err e
       end;
     RestartExistingChannelRequest := RestartExisting;
     BaseCid req :=
       match req with
       | Request _ r => message.BaseCid r
       | RestartExisting _ => Undef
       end |}.

Definition alice : datatransfer.peer_ID := "alice".
Definition bob : datatransfer.peer_ID := "bob".

Definition chid : datatransfer.ChannelID :=
  {| datatransfer.Initiator := alice; datatransfer.ID := 11%N |}.

Definition the_voucher : voucher := {| vtype := "t1"; vbytes := [x01] |}.

(** Alice's push channel to Bob, transfer 11, under way. *)
Definition channel : ChannelState voucher node :=
  {| chst.ChannelID := chid;
     chst.BaseCID := {| str := "QmRoot" |};
     chst.Selector := [xa0];
     chst.Voucher := the_voucher;
     chst.Sender := alice;
     chst.Recipient := bob;
     chst.TotalSize := 0%N;
     chst.Status := datatransfer.Ongoing;
     chst.Sent := 500%N;
     chst.Received := 500%N;
     chst.Message := "";
     chst.ReceivedCids := [{| str := "QmBlock1" |}] |}.

Definition world : World voucher node request :=
  {| store := {[ chid := channel ]}; calls := [] |}.

(** Decoding a request's voucher: its bytes under its type. *)
Definition decode (req : request) : result voucher :=
  match req with
  | Request _ r =>
    match message.trq.Vouch r with
    | Some d => Ok {| vtype := message.trq.VTyp r; vbytes := message.Raw d |}
    | None => Err (errors_New "No voucher present to read")
    end
  | RestartExisting _ => Err (errors_New "No voucher present to read")
  end.

(** Alice's manager; [online] says whether her sends and opens succeed. *)
Definition alice_manager (online : bool) : manager voucher node request :=
  {| peerID := alice;
     decodeVoucher := decode;
     validateVoucher _ _ _ _ _ := None;
     transportConfigurers_Processor vt := bool_decide (vt = "t1");
     SendMessage_result _ _ :=
       if online then None else Some (errors_New "connection refused");
     OpenChannel_result _ _ _ _ _ _ :=
       if online then None else Some (errors_New "connection refused") |}.

(** Bob's manager, the responder of the same channel. *)
Definition bob_manager : manager voucher node request :=
  {| peerID := bob;
     decodeVoucher := decode;
     validateVoucher _ _ _ _ _ := None;
     transportConfigurers_Processor _ := false;
     SendMessage_result _ _ := None;
     OpenChannel_result _ _ _ _ _ _ := None |}.

(** The restart request Alice sends for the channel. *)
Definition restart_request : request :=
  Request true
    {| message.trq.BCid := Some {| str := "QmRoot" |};
       message.trq.Canc := false;
       message.trq.Paus := false;
       message.trq.Pull := false;
       message.trq.Updt := false;
       message.trq.Stor := Some {| message.Raw := [xa0] |};
       message.trq.Vouch := Some {| message.Raw := [x01] |};
       message.trq.VTyp := "t1";
       message.trq.XferID := 11%N |}.

(** The same channel later: paused by the receiver, further along, with one
    more block received, in a world where calls have been made. *)
Definition channel_later : ChannelState voucher node :=
  {| chst.ChannelID := chid;
     chst.BaseCID := {| str := "QmRoot" |};
     chst.Selector := [xa0];
     chst.Voucher := the_voucher;
     chst.Sender := alice;
     chst.Recipient := bob;
     chst.TotalSize := 2000%N;
     chst.Status := datatransfer.ReceiverPaused;
     chst.Sent := 900%N;
     chst.Received := 900%N;
     chst.Message := "paused";
     chst.ReceivedCids := [{| str := "QmBlock1" |}; {| str := "QmBlock2" |}] |}.

Definition world_later : World voucher node request :=
  {| store := {[ chid := channel_later ]};
     calls := [Protect alice (datatransfer.ChannelID_String chid)] |}.

(** Another transfer of Alice's. *)
Definition other_chid : datatransfer.ChannelID :=
  {| datatransfer.Initiator := alice; datatransfer.ID := 12%N |}.

End example.

(** * Properties *)

(** ** The constructors of package message *)

Section NewRequest_properties.

Import cid encoding message.

Context {Voucher Node : Type} `{!Encodable Voucher} `{!Encodable Node}.

(** C3.  [NewRequest] returns an error when the base CID is the zero CID, or
    the voucher fails to encode, or the selector fails to encode; otherwise
    it returns a request whose transfer id is [id], whose pull flag is
    [isPull], whose voucher type is [vtype] and whose base CID is [baseCid].
    ([NewRequest] of [message.go] has no [isRestart] parameter; nothing
    stated here depends on one.) *)
Theorem NewRequest_error_or_request
    (id : datatransfer.TransferID) (isPull : bool) (vtype : datatransfer.TypeIdentifier)
    (voucher : Voucher) (baseCid : Cid) (selector : Node) :
  ((baseCid = Undef \/ is_Err (Encode voucher) \/ is_Err (Encode selector)) /\
   is_Err (NewRequest id isPull vtype voucher baseCid selector))
  \/
  ((baseCid <> Undef /\ ~ is_Err (Encode voucher) /\ ~ is_Err (Encode selector)) /\
   exists r : transferRequest,
     NewRequest id isPull vtype voucher baseCid selector = Ok r /\
     TransferID r = id /\ IsPull r = isPull /\ VoucherType r = vtype /\
     BaseCid r = baseCid /\
     trq.XferID r = id /\ trq.Pull r = isPull /\ trq.VTyp r = vtype /\
     trq.BCid r = Some baseCid).
Proof.
  unfold NewRequest.
  destruct (Encode voucher) as [vbytes|ev] eqn:Hv.
  - destruct (decide (baseCid = Undef)) as [Hc|Hc].
    + left. split; [left; exact Hc | exact I].
    + destruct (Encode selector) as [selBytes|es] eqn:Hs.
      * right. split.
        { split; [exact Hc | split; intros []]. }
        eexists. split; [reflexivity|]. cbn. repeat split; reflexivity.
      * left. split; [right; right; exact I | exact I].
  - left. split; [right; left; exact I | exact I].
Qed.

End NewRequest_properties.

(** ** The message interfaces *)

Section Interface_properties.

Import message.



End Interface_properties.

(** ** FromNet *)

Section FromNet_properties.

Import message.

(** C9.  When unmarshalling the envelope fails, [FromNet] returns the
    request pointer (whatever it is, nil included) with a nil error if the
    envelope decoded so far says it is a request, and returns the error only
    if it says it is a response. *)
Theorem FromNet_error_only_for_response
    (UnmarshalCBOR : transferMessage -> io_Reader -> transferMessage * option error)
    (r : io_Reader) (tresp : transferMessage) (err : error) :
  UnmarshalCBOR transferMessage_zero r = (tresp, Some err) ->
  (transferMessage_IsRequest tresp = true ->
   FromNet UnmarshalCBOR r = (IfaceRequest (Request tresp), None)) /\
  (transferMessage_IsRequest tresp = false ->
   FromNet UnmarshalCBOR r = (IfaceResponse (Response tresp), Some err)).
Proof.
  intros Hu. unfold FromNet. rewrite Hu.
  split; intros ->; reflexivity.
Qed.

(** Three bytes: an array of three, [true], and a byte no item starts with.
    The request flag is read, the request is not: a nil request, nil error. *)
Lemma FromNet_error_only_for_response_witness :
  wire.UnmarshalCBOR transferMessage_zero [x83; xf5; xff]
    = ({| IsRq := true; Request := None; Response := None |},
       Some (errors_New "invalid header")) /\
  FromNet wire.UnmarshalCBOR [x83; xf5; xff] = (IfaceRequest None, None).
Proof.
  split; [reflexivity|].
  exact (proj1 (FromNet_error_only_for_response wire.UnmarshalCBOR [x83; xf5; xff]
                  {| IsRq := true; Request := None; Response := None |}
                  (errors_New "invalid header") eq_refl) eq_refl).
Defined.

End FromNet_properties.


(** ** The restart handshake *)

Section Restart_properties.

Import cid encoding channels impl.

Context {VoucherT NodeT Request : Type}.
Context `{!datatransfer.Registerable VoucherT} `{!MessageAPI VoucherT NodeT Request}.

Local Open Scope list_scope.

Implicit Types (m : manager VoucherT NodeT Request) (w : World VoucherT NodeT Request).
Implicit Types (channel : ChannelState VoucherT NodeT) (req : Request).

(** C1.  [validateRestartRequest] returns nil exactly when: (1) the store
    has a channel under the given id, (2) whose status is not terminal, (3)
    whose own channel id has the sending peer as initiator, (4) whose base
    CID is the request's, (5) the request's voucher decodes and has the type
    of the channel's voucher, and (6) both vouchers encode, to the same
    bytes.  In every other case it returns an error. *)
Theorem validateRestartRequest_nil_iff m (otherPeer : datatransfer.peer_ID)
    (chid : datatransfer.ChannelID) req w :
  ((validateRestartRequest m otherPeer chid req w).1 = None <->
   exists channel,
     store w !! chid = Some channel /\
     IsChannelTerminated (chst.Status channel) = false /\
     datatransfer.Initiator (chst.ChannelID channel) = otherPeer /\
     BaseCid req = chst.BaseCID channel /\
     exists reqVoucher,
       decodeVoucher m req = Ok reqVoucher /\
       datatransfer.Type_ reqVoucher = datatransfer.Type_ (chst.Voucher channel) /\
       exists bz, Encode reqVoucher = Ok bz /\ Encode (chst.Voucher channel) = Ok bz) /\
  ((validateRestartRequest m otherPeer chid req w).1 = None \/
   exists err, (validateRestartRequest m otherPeer chid req w).1 = Some err).
Proof.
  split; [|destruct (validateRestartRequest m otherPeer chid req w).1; eauto].
  unfold validateRestartRequest, mbind, channels_GetByID, GetByID, mreturn.
  destruct (store w !! chid) as [channel|] eqn:Hget; cbn.
  2:{ split; [discriminate | intros (c & Hc & _); discriminate]. }
  destruct (IsChannelTerminated (chst.Status channel)) eqn:Hterm; cbn.
  { split; [discriminate | intros (c & [= <-] & Hc & _); congruence]. }
  case_bool_decide as Hinit; cbn.
  2:{ split; [discriminate | intros (c & [= <-] & _ & Hc & _); contradiction]. }
  case_bool_decide as Hcid; cbn.
  2:{ split; [discriminate | intros (c & [= <-] & _ & _ & Hc & _); contradiction]. }
  destruct (decodeVoucher m req) as [reqVoucher|e] eqn:Hdec; cbn.
  2:{ split; [discriminate | intros (c & [= <-] & _ & _ & _ & v & Hv & _); discriminate]. }
  case_bool_decide as Htype; cbn.
  2:{ split; [discriminate|].
      intros (c & [= <-] & _ & _ & _ & v & [= <-] & Hv & _); contradiction. }
  destruct (Encode reqVoucher) as [reqBz|e] eqn:Hreq; cbn.
  2:{ split; [discriminate|].
      intros (c & [= <-] & _ & _ & _ & v & [= <-] & _ & bz & Hbz & _); congruence. }
  destruct (Encode (chst.Voucher channel)) as [channelBz|e] eqn:Hch; cbn.
  2:{ split; [discriminate|].
      intros (c & [= <-] & _ & _ & _ & v & [= <-] & _ & bz & _ & Hbz); congruence. }
  case_bool_decide as Hbz; cbn.
  2:{ split; [discriminate|].
      intros (c & [= <-] & _ & _ & _ & v & [= <-] & _ & bz & Hb1 & Hb2); congruence. }
  split; [|reflexivity]. intros _.
  exists channel. split; [reflexivity|]. split; [exact Hterm|].
  split; [exact Hinit|]. split; [exact Hcid|].
  exists reqVoucher. split; [reflexivity|]. split; [exact Htype|].
  exists reqBz. split; [exact Hreq | congruence].
Qed.

(** C10.  [validateRestartRequest] changes nothing: whatever it returns, the
    channel store, and with it every channel's state, is the one before the
    call, and no call was made on the network or the transport. *)
Theorem validateRestartRequest_changes_nothing m (otherPeer : datatransfer.peer_ID)
    (chid : datatransfer.ChannelID) req w :
  (validateRestartRequest m otherPeer chid req w).2 = w /\
  store (validateRestartRequest m otherPeer chid req w).2 = store w /\
  (forall c : datatransfer.ChannelID,
     store (validateRestartRequest m otherPeer chid req w).2 !! c = store w !! c).
Proof.
  assert (Hsame : (validateRestartRequest m otherPeer chid req w).2 = w).
  { unfold validateRestartRequest, mbind, channels_GetByID, mreturn.
    destruct (GetByID (store w) chid) as [channel|]; [|reflexivity].
    repeat match goal with
           | |- context [if ?b then _ else _] => destruct b
           | |- context [match ?r with Ok _ => _ | Err _ => _ end] => destruct r
           end; reflexivity. }
  rewrite Hsame. auto.
Qed.

(** C4.  The responder's restart, push or pull, first rebuilds with
    [NewRequest] (not a restart; pull or push as the channel is) the request
    that would have created the channel and passes it to [validateVoucher].
    If the request cannot be built or the voucher is refused, it returns the
    error, wrapped, and the world is as before: no message is sent.
    Otherwise it sends exactly one message, the restart request for the
    channel's id, to the other party, and returns what the send returns.
    This holds for every channel, terminal or not. *)
Theorem restartManagerPeerReceive_validates_then_sends m channel (isPull : bool) w :
  let restart := if isPull then restartManagerPeerReceivePull
                 else restartManagerPeerReceivePush in
  let chid := chst.ChannelID channel in
  let other := OtherParty channel (peerID m) in
  let wrap := Errorf_w "failed to restart channel, validation error" in
  match NewRequest (datatransfer.ID chid) false isPull
          (datatransfer.Type_ (chst.Voucher channel)) (chst.Voucher channel)
          (chst.BaseCID channel) (chst.Selector channel) with
  | Err err => restart m channel w = (Some (wrap err), w)
  | Ok req =>
    match validateVoucher m other req isPull (chst.BaseCID channel)
            (chst.Selector channel) with
    | Some err => restart m channel w = (Some (wrap err), w)
    | None =>
      restart m channel w =
      (SendMessage_result m other (RestartExistingChannelRequest chid),
       {| store := store w;
          calls := calls w ++ [SendMessage other (RestartExistingChannelRequest chid)] |})
    end
  end.
Proof.
  cbv zeta.
  destruct isPull;
    unfold restartManagerPeerReceivePull, restartManagerPeerReceivePush,
      validateRestartVoucher;
    (destruct (NewRequest _ _ _ _ _ _ _) as [req|err]; [|reflexivity]);
    (destruct (validateVoucher _ _ _ _ _ _) as [err|]; reflexivity).
Qed.

(** An initiator's restart whose request cannot be built. *)
Lemma openRestartChannel_no_request m channel (isPull : bool) w (err : error) :
  NewRequest (datatransfer.ID (chst.ChannelID channel)) true isPull
    (datatransfer.Type_ (chst.Voucher channel)) (chst.Voucher channel)
    (chst.BaseCID channel) (chst.Selector channel) = Err err ->
  (if isPull then openPullRestartChannel else openPushRestartChannel) m channel w
  = (Some err, w).
Proof.
  intros Hreq.
  destruct isPull; unfold openPullRestartChannel, openPushRestartChannel;
    rewrite Hreq; reflexivity.
Qed.

(** An initiator's restart whose request [req] is built: the calls up to the
    send or open, and then, by the outcome of that, nothing more or the
    store's [Error]. *)
Lemma openRestartChannel_run m channel (isPull : bool) w req :
  NewRequest (datatransfer.ID (chst.ChannelID channel)) true isPull
    (datatransfer.Type_ (chst.Voucher channel)) (chst.Voucher channel)
    (chst.BaseCID channel) (chst.Selector channel) = Ok req ->
  let chid := chst.ChannelID channel in
  let other := OtherParty channel (peerID m) in
  let made :=
    calls w ++
    (if transportConfigurers_Processor m (datatransfer.Type_ (chst.Voucher channel))
     then [Configure chid (chst.Voucher channel)] else []) ++
    [Protect other (datatransfer.ChannelID_String chid);
     if isPull
     then OpenChannel other chid (chst.BaseCID channel) (chst.Selector channel)
            (chst.ReceivedCids channel) req
     else SendMessage other req] in
  (if isPull then openPullRestartChannel else openPushRestartChannel) m channel w
  = match (if isPull
           then OpenChannel_result m other chid (chst.BaseCID channel)
                  (chst.Selector channel) (chst.ReceivedCids channel) req
           else SendMessage_result m other req) with
    | None => (None, {| store := store w; calls := made |})
    | Some err =>
      (Some (Errorf_w "Unable to send request" err),
       {| store := (Error (store w) chid (Errorf_w "Unable to send request" err)).1;
          calls := made |})
    end.
Proof.
  intros Hreq. cbv zeta.
  destruct isPull; unfold openPullRestartChannel, openPushRestartChannel;
    rewrite Hreq;
    unfold mbind, configureTransport, dataTransferNetwork_Protect,
      dataTransferNetwork_SendMessage, transport_OpenChannel, call, mreturn;
    destruct (transportConfigurers_Processor m _); cbn;
    match goal with
    | |- context [match ?r with Some _ => _ | None => _ end] => destruct r
    end;
    unfold channels_Error; cbn;
    try match goal with
        | |- context [Error ?s ?c ?e] => destruct (Error s c e)
        end;
    cbn; rewrite <- ?app_assoc; reflexivity.
Qed.

(** C5.  The initiator's restart builds its request with [NewRequest],
    [isRestart] true and [isPull] false for push, true for pull.  When the
    request is built, the calls it makes are, in this order: the transport
    configurer if one is registered for the voucher's type, [Protect] for the
    other party, and then [SendMessage] of the request (push) or
    [OpenChannel] with the request and the channel's [ReceivedCids] (pull).
    When the request cannot be built it returns the error and makes no
    call. *)
Theorem openRestartChannel_calls m channel (isPull : bool) w :
  let open := if isPull then openPullRestartChannel else openPushRestartChannel in
  match NewRequest (datatransfer.ID (chst.ChannelID channel)) true isPull
          (datatransfer.Type_ (chst.Voucher channel)) (chst.Voucher channel)
          (chst.BaseCID channel) (chst.Selector channel) with
  | Err err => open m channel w = (Some err, w)
  | Ok req =>
    let chid := chst.ChannelID channel in
    let other := OtherParty channel (peerID m) in
    calls (open m channel w).2 =
    calls w ++
    (if transportConfigurers_Processor m (datatransfer.Type_ (chst.Voucher channel))
     then [Configure chid (chst.Voucher channel)] else []) ++
    [Protect other (datatransfer.ChannelID_String chid);
     if isPull
     then OpenChannel other chid (chst.BaseCID channel) (chst.Selector channel)
            (chst.ReceivedCids channel) req
     else SendMessage other req]
  end.
Proof.
  cbv zeta.
  destruct (NewRequest _ true isPull _ _ _ _) as [req|err] eqn:Hreq.
  - rewrite (openRestartChannel_run m channel isPull w req Hreq).
    destruct isPull;
      match goal with
      | |- context [match ?r with Some _ => _ | None => _ end] => destruct r
      end; reflexivity.
  - apply openRestartChannel_no_request, Hreq.
Qed.

(** C6.  When the send (push) or the open (pull) of a restart fails, the
    function returns that error, wrapped as "Unable to send request", and
    calls [Error] of the channel store with it for the channel: the store
    afterwards is the one [Error] leaves, in which a channel that was there
    and not terminal has status Failed and the error's text as message. *)
Theorem openRestartChannel_failure_fails_channel m channel (isPull : bool) w req
    (err : error) :
  NewRequest (datatransfer.ID (chst.ChannelID channel)) true isPull
    (datatransfer.Type_ (chst.Voucher channel)) (chst.Voucher channel)
    (chst.BaseCID channel) (chst.Selector channel) = Ok req ->
  (if isPull
   then OpenChannel_result m (OtherParty channel (peerID m)) (chst.ChannelID channel)
          (chst.BaseCID channel) (chst.Selector channel) (chst.ReceivedCids channel) req
   else SendMessage_result m (OtherParty channel (peerID m)) req) = Some err ->
  let open := if isPull then openPullRestartChannel else openPushRestartChannel in
  let failure := Errorf_w "Unable to send request" err in
  (open m channel w).1 = Some failure /\
  store (open m channel w).2 = (Error (store w) (chst.ChannelID channel) failure).1 /\
  forall c : ChannelState VoucherT NodeT,
    store w !! chst.ChannelID channel = Some c ->
    IsChannelTerminated (chst.Status c) = false ->
    exists c',
      store (open m channel w).2 !! chst.ChannelID channel = Some c' /\
      chst.Status c' = datatransfer.Failed /\
      chst.Message c' = Error_text failure.
Proof.
  intros Hreq Hsend. cbv zeta.
  rewrite (openRestartChannel_run m channel isPull w req Hreq). cbv zeta.
  rewrite Hsend. cbn [fst snd store].
  split; [reflexivity|]. split; [reflexivity|].
  intros c Hc Hterm. unfold Error. rewrite Hc, Hterm. cbn [fst].
  exists (fail_channel c (Errorf_w "Unable to send request" err)).
  split; [apply lookup_insert_eq|]. split; reflexivity.
Qed.

Lemma count_calls_app (f : Call VoucherT NodeT Request -> bool)
    (cs1 cs2 : list (Call VoucherT NodeT Request)) :
  count_calls f (cs1 ++ cs2) = count_calls f cs1 + count_calls f cs2.
Proof. induction cs1 as [|c cs1 IH]; cbn; [reflexivity | rewrite IH; lia]. Qed.

End Restart_properties.

(** ** The restart handshake on the example *)

Section Restart_examples.

Import cid encoding channels impl.

(** Alice's push restart of her channel to Bob while Bob is unreachable. *)
Lemma openRestartChannel_failure_fails_channel_witness :
  (openPushRestartChannel (example.alice_manager false) example.channel example.world).1
    = Some (Errorf_w "Unable to send request" (errors_New "connection refused")) /\
  exists c',
    store (openPushRestartChannel (example.alice_manager false) example.channel
             example.world).2 !! example.chid = Some c' /\
    chst.Status c' = datatransfer.Failed /\
    chst.Message c' = "Unable to send request: connection refused"%string.
Proof.
  pose proof (openRestartChannel_failure_fails_channel
                (example.alice_manager false) example.channel false example.world
                example.restart_request (errors_New "connection refused")
                eq_refl eq_refl) as (Hres & _ & Hfailed).
  split; [exact Hres | exact (Hfailed example.channel eq_refl eq_refl)].
Defined.

End Restart_examples.

(** ** More on package message *)

Section Message_properties.

Import cid encoding message.

Context {Voucher Node VoucherResult : Type}.
Context `{!Encodable Voucher} `{!Encodable Node} `{!Encodable VoucherResult}.

(** X1.  [FromNet] never returns an error beside a request: a request
    comes with a nil error, whatever unmarshalling said, and is the request
    pointer of an envelope flagged as a request; a response comes with the
    unmarshalling error, nil or not, and is the response pointer of an
    envelope not flagged as a request. *)
Theorem FromNet_request_has_nil_error
    (UnmarshalCBOR : transferMessage -> io_Reader -> transferMessage * option error)
    (r : io_Reader) :
  match FromNet UnmarshalCBOR r with
  | (IfaceRequest p, err) =>
    err = None /\
    transferMessage_IsRequest (UnmarshalCBOR transferMessage_zero r).1 = true /\
    p = Request (UnmarshalCBOR transferMessage_zero r).1
  | (IfaceResponse p, err) =>
    err = (UnmarshalCBOR transferMessage_zero r).2 /\
    transferMessage_IsRequest (UnmarshalCBOR transferMessage_zero r).1 = false /\
    p = Response (UnmarshalCBOR transferMessage_zero r).1
  end.
Proof.
  unfold FromNet.
  destruct (UnmarshalCBOR transferMessage_zero r) as [tresp err]. cbn [fst snd].
  destruct (transferMessage_IsRequest tresp) eqn:Hflag; auto.
Qed.

(** X2.  A request that [NewRequest] returns carries the voucher's encoding
    and the selector's encoding, each as a deferred blob, and is neither a
    cancel, nor an update, nor paused. *)
Theorem NewRequest_carries_encodings
    (id : datatransfer.TransferID) (isPull : bool) (vtype : datatransfer.TypeIdentifier)
    (voucher : Voucher) (baseCid : Cid) (selector : Node) (r : transferRequest) :
  NewRequest id isPull vtype voucher baseCid selector = Ok r ->
  (exists vbytes selBytes,
     Encode voucher = Ok vbytes /\ Encode selector = Ok selBytes /\
     trq.Vouch r = Some {| Raw := vbytes |} /\
     trq.Stor r = Some {| Raw := selBytes |}) /\
  trq.Canc r = false /\ trq.Updt r = false /\ trq.Paus r = false.
Proof.
  unfold NewRequest. intros Hr.
  destruct (Encode voucher) as [vbytes|]; [|discriminate Hr].
  destruct (decide (baseCid = Undef)); [discriminate Hr|].
  destruct (Encode selector) as [selBytes|]; [|discriminate Hr].
  injection Hr as <-. cbn. split; [|auto]. exists vbytes, selBytes. auto.
Qed.

(** X3.  [UpdateRequest] fails exactly when its voucher fails to encode, and
    [NewResponse] exactly when its voucher result fails to encode; the error
    is the encoder's, wrapped under "Creating request" for the response as
    well.  Otherwise the message carries the encoding, the type identifier
    and the transfer id it was given; an update request has no base CID and
    no selector, and a response is not a cancel. *)
Theorem UpdateRequest_NewResponse_results
    (id : datatransfer.TransferID) (accepted isUpdate isPaused : bool)
    (vtype : datatransfer.TypeIdentifier) (voucher : Voucher)
    (voucherResult : VoucherResult) :
  match Encode voucher with
  | Err err => UpdateRequest id isPaused vtype voucher = Err (Errorf_w "Creating request" err)
  | Ok vbytes =>
    exists r, UpdateRequest id isPaused vtype voucher = Ok r /\
              trq.Vouch r = Some {| Raw := vbytes |} /\ trq.VTyp r = vtype /\
              trq.XferID r = id /\ trq.Updt r = true /\ trq.Paus r = isPaused /\
              trq.BCid r = None /\ trq.Stor r = None
  end /\
  match Encode voucherResult with
  | Err err =>
    NewResponse id accepted isUpdate isPaused vtype voucherResult
    = Err (Errorf_w "Creating request" err)
  | Ok vbytes =>
    exists r, NewResponse id accepted isUpdate isPaused vtype voucherResult = Ok r /\
              trsp.VRes r = Some {| Raw := vbytes |} /\ trsp.VTyp r = vtype /\
              trsp.XferID r = id /\ trsp.Acpt r = accepted /\ trsp.Updt r = isUpdate /\
              trsp.Paus r = isPaused /\ trsp.Canc r = false
  end.
Proof.
  unfold UpdateRequest, NewResponse. split.
  - destruct (Encode voucher); [|reflexivity].
    eexists. split; [reflexivity|]. cbn. auto 10.
  - destruct (Encode voucherResult); [|reflexivity].
    eexists. split; [reflexivity|]. cbn. auto 10.
Qed.

(** X4.  The requests that the constructors return are of three kinds, told
    apart by the cancel and update flags.  A cancel carries nothing but the
    transfer id.  An update carries a voucher, and no base CID or selector.
    A request with neither flag carries a base CID, a selector and a
    voucher, and is not paused.  No request carries the zero CID, and a
    request has a selector exactly when it has a base CID. *)
Theorem constructed_request_kinds (r : transferRequest) :
  constructed_request (Voucher := Voucher) (Node := Node) r ->
  (trq.Canc r = true ->
   trq.Updt r = false /\ trq.Paus r = false /\ trq.Pull r = false /\
   trq.BCid r = None /\ trq.Stor r = None /\ trq.Vouch r = None /\
   trq.VTyp r = datatransfer.EmptyTypeIdentifier) /\
  (trq.Updt r = true ->
   trq.Canc r = false /\ trq.Pull r = false /\
   trq.BCid r = None /\ trq.Stor r = None /\ is_Some (trq.Vouch r)) /\
  (trq.Canc r = false -> trq.Updt r = false ->
   trq.Paus r = false /\
   is_Some (trq.BCid r) /\ is_Some (trq.Stor r) /\ is_Some (trq.Vouch r)) /\
  trq.BCid r <> Some Undef /\
  (is_Some (trq.Stor r) <-> is_Some (trq.BCid r)).
Proof.
  intros [id isPull vtype voucher baseCid selector r' Hr | id
         | id isPaused vtype voucher r' Hr].
  - unfold NewRequest in Hr.
    destruct (Encode voucher); [|discriminate Hr].
    destruct (decide (baseCid = Undef)) as [|Hc]; [discriminate Hr|].
    destruct (Encode selector); [|discriminate Hr].
    injection Hr as <-. cbn.
    repeat split; try discriminate; eauto; congruence.
  - cbn. repeat split; try discriminate; auto; intros [? [=]].
  - unfold UpdateRequest in Hr.
    destruct (Encode voucher); [|discriminate Hr].
    injection Hr as <-. cbn.
    repeat split; try discriminate; eauto; intros [? [=]].
Qed.

(** X5.  The responses that the constructors return: a cancel response is
    never an acceptance, an update or a pause and carries no voucher result;
    every other response carries a voucher result. *)
Theorem constructed_response_kinds (r : transferResponse) :
  constructed_response (VoucherResult := VoucherResult) r ->
  (trsp.Canc r = true ->
   trsp.Acpt r = false /\ trsp.Updt r = false /\ trsp.Paus r = false /\
   trsp.VRes r = None /\ trsp.VTyp r = datatransfer.EmptyTypeIdentifier) /\
  (trsp.Canc r = false -> is_Some (trsp.VRes r)).
Proof.
  intros [id accepted isUpdate isPaused vtype voucherResult r' Hr | id].
  - unfold NewResponse in Hr.
    destruct (Encode voucherResult); [|discriminate Hr].
    injection Hr as <-. cbn. split; [discriminate | eauto].
  - cbn. split; [auto 10 | discriminate].
Qed.

End Message_properties.

(** ** The constructors on the example voucher *)

Section Message_examples.

Import cid encoding message.

(** The pull request for the example channel's content. *)
Lemma NewRequest_carries_encodings_witness :
  let r := {| trq.BCid := Some {| str := "QmRoot" |};
              trq.Canc := false; trq.Paus := false; trq.Pull := true;
              trq.Updt := false;
              trq.Stor := Some {| Raw := [xa0] |};
              trq.Vouch := Some {| Raw := [x01] |};
              trq.VTyp := "t1"; trq.XferID := 11%N |} in
  NewRequest 11%N true "t1" example.the_voucher {| str := "QmRoot" |}
    ([xa0] : example.node) = Ok r /\
  trq.Canc r = false /\ trq.Updt r = false /\ trq.Paus r = false.
Proof.
  cbv zeta. split; [reflexivity|].
  exact (proj2 (NewRequest_carries_encodings 11%N true "t1" example.the_voucher
                  {| str := "QmRoot" |} ([xa0] : example.node) _ eq_refl)).
Defined.

(** A cancel request carries no voucher and no base CID. *)
Lemma constructed_request_kinds_witness :
  trq.Vouch (CancelRequest 7%N) = None /\ trq.BCid (CancelRequest 7%N) = None.
Proof.
  destruct (constructed_request_kinds (Voucher := example.voucher) (Node := example.node)
              (CancelRequest 7%N) (by_CancelRequest 7%N)) as [Hcancel _].
  destruct (Hcancel eq_refl) as (_ & _ & _ & Hb & _ & Hv & _).
  split; [exact Hv | exact Hb].
Defined.

(** A response to the example voucher is not a cancel and has its result. *)
Lemma constructed_response_kinds_witness :
  let r := {| trsp.Acpt := true; trsp.Canc := false; trsp.Paus := false;
              trsp.Updt := false; trsp.VRes := Some {| Raw := [x01] |};
              trsp.VTyp := "t1"; trsp.XferID := 11%N |} in
  NewResponse 11%N true false false "t1" example.the_voucher = Ok r /\
  is_Some (trsp.VRes r).
Proof.
  cbv zeta. split; [reflexivity|].
  exact (proj2 (constructed_response_kinds (VoucherResult := example.voucher) _
                  (by_NewResponse 11%N true false false "t1" example.the_voucher _
                     eq_refl)) eq_refl).
Defined.

End Message_examples.

(** ** Names *)

Section Name_properties.

Import datatransfer.

Lemma no_dash_pretty_N_go (x : N) (s : string) :
  no_dash s -> no_dash (pretty_N_go x s).
Proof.
  revert s. induction (N.lt_wf_0 x) as [x _ IH]; intros s Hs.
  destruct (decide (x = 0%N)) as [->|Hx].
  - rewrite pretty_N_go_0. exact Hs.
  - rewrite pretty_N_go_step by lia. apply IH.
    + apply N.div_lt; lia.
    + split; [|exact Hs]. unfold pretty_N_char. repeat case_match; discriminate.
Qed.

Lemma no_dash_pretty (n : N) : no_dash (pretty n).
Proof.
  unfold pretty, pretty_N. case_decide.
  - cbn. split; [discriminate | exact I].
  - apply no_dash_pretty_N_go. exact I.
Qed.

Lemma no_dash_after_dash (a b : string) : ~ no_dash (a ++ String "-" b)%string.
Proof.
  induction a as [|c a IH]; cbn; intros [Hc Hrest]; [congruence | auto].
Qed.

(** Cutting at the last dash: what follows it has none. *)
Lemma last_dash_inj (s1 s2 d1 d2 : string) :
  no_dash d1 -> no_dash d2 ->
  (s1 ++ String "-" d1)%string = (s2 ++ String "-" d2)%string ->
  s1 = s2 /\ d1 = d2.
Proof.
  intros Hd1 Hd2. revert s2.
  induction s1 as [|c s1 IH]; intros [|c' s2]; cbn; intros Heq.
  - injection Heq as ->. auto.
  - injection Heq as <- ->. destruct (no_dash_after_dash _ _ Hd1).
  - injection Heq as -> <-. destruct (no_dash_after_dash _ _ Hd2).
  - injection Heq as <- Heq. destruct (IH _ Heq) as [-> ->]. auto.
Qed.

Lemma ChannelID_String_eq_inv (c1 c2 : ChannelID) :
  ChannelID_String c1 = ChannelID_String c2 -> c1 = c2.
Proof.
  unfold ChannelID_String. cbn. intros Heq.
  apply last_dash_inj in Heq as [Hi Hn]; [|apply no_dash_pretty..].
  apply (inj pretty) in Hn. destruct c1, c2; cbn in *; congruence.
Qed.

(** X6.  The string of a channel id names one channel id: two channel ids
    print the same exactly when they are the same, whatever characters the
    initiator's peer id prints as (the transfer id follows the last dash). *)
Theorem ChannelID_String_same_iff (c1 c2 : ChannelID) :
  ChannelID_String c1 = ChannelID_String c2 <-> c1 = c2.
Proof.
  split; [apply ChannelID_String_eq_inv | intros ->; reflexivity].
Qed.

(** X7.  [Statuses] and [Events] give every status and every event code a
    name of its own, none empty: a name tells which status or event it is.
    The numbers behind the constants are their positions in the
    declarations, from zero. *)
Theorem Statuses_Events_name_apart :
  (forall s1 s2 : Status, Statuses s1 = Statuses s2 <-> s1 = s2) /\
  (forall s : Status, Statuses s <> "") /\
  (forall e1 e2 : EventCode, Events e1 = Events e2 <-> e1 = e2) /\
  (forall e : EventCode, Events e <> "") /\
  (forall s1 s2 : Status, Status_code s1 = Status_code s2 <-> s1 = s2) /\
  (forall s : Status, (Status_code s < 12)%N) /\
  (forall e1 e2 : EventCode, EventCode_code e1 = EventCode_code e2 <-> e1 = e2) /\
  (forall e : EventCode, (EventCode_code e < 14)%N).
Proof.
  repeat split.
  - destruct s1, s2; intros Hn; first [reflexivity | discriminate Hn].
  - intros ->; reflexivity.
  - destruct s; discriminate.
  - destruct e1, e2; intros Hn; first [reflexivity | discriminate Hn].
  - intros ->; reflexivity.
  - destruct e; discriminate.
  - destruct s1, s2; intros Hn; first [reflexivity | discriminate Hn].
  - intros ->; reflexivity.
  - destruct s; reflexivity.
  - destruct e1, e2; intros Hn; first [reflexivity | discriminate Hn].
  - intros ->; reflexivity.
  - destruct e; reflexivity.
Qed.

End Name_properties.

(** ** More on the restart handshake *)

Section Restart_more_properties.

Import cid encoding channels impl.

Context {VoucherT NodeT Request : Type}.
Context `{!datatransfer.Registerable VoucherT} `{!MessageAPI VoucherT NodeT Request}.

Local Open Scope list_scope.

Implicit Types (m : manager VoucherT NodeT Request) (w : World VoucherT NodeT Request).
Implicit Types (channel : ChannelState VoucherT NodeT) (req : Request).

(** X8.  An initiator's restart returns nil exactly when its request is
    built and the send (push) or the open (pull) succeeds; it then leaves
    the channel store as it was. *)
Theorem openRestartChannel_nil_iff m channel (isPull : bool) w :
  let open := if isPull then openPullRestartChannel else openPushRestartChannel in
  ((open m channel w).1 = None <->
   exists req,
     NewRequest (datatransfer.ID (chst.ChannelID channel)) true isPull
       (datatransfer.Type_ (chst.Voucher channel)) (chst.Voucher channel)
       (chst.BaseCID channel) (chst.Selector channel) = Ok req /\
     (if isPull
      then OpenChannel_result m (OtherParty channel (peerID m)) (chst.ChannelID channel)
             (chst.BaseCID channel) (chst.Selector channel) (chst.ReceivedCids channel) req
      else SendMessage_result m (OtherParty channel (peerID m)) req) = None) /\
  ((open m channel w).1 = None -> store (open m channel w).2 = store w).
Proof.
  cbv zeta.
  destruct (NewRequest _ true isPull _ _ _ _) as [req|err] eqn:Hreq.
  - rewrite (openRestartChannel_run m channel isPull w req Hreq). cbv zeta.
    destruct (if isPull then _ else _) as [e|] eqn:Hout; cbn [fst snd store].
    + split; [|discriminate]. split; [discriminate|].
      intros (req' & [= <-] & Hnone). congruence.
    + split; [|reflexivity]. split; [|reflexivity]. intros _. eauto.
  - rewrite (openRestartChannel_no_request m channel isPull w err Hreq). cbn.
    split; [|discriminate]. split; [discriminate | intros (req' & [=] & _)].
Qed.

(** X9.  Restarting a channel as initiator makes no [Protect] call under
    the tag of any other channel: the count of [Protect] calls under the
    string of a different channel id is the same before and after. *)
Theorem openRestartChannel_other_tags m channel (isPull : bool) w
    (chid' : datatransfer.ChannelID) :
  chid' <> chst.ChannelID channel ->
  let open := if isPull then openPullRestartChannel else openPushRestartChannel in
  count_calls (is_Protect (datatransfer.ChannelID_String chid')) (calls (open m channel w).2)
  = count_calls (is_Protect (datatransfer.ChannelID_String chid')) (calls w).
Proof.
  intros Hne. cbv zeta.
  assert (Htag : datatransfer.ChannelID_String (chst.ChannelID channel)
                 <> datatransfer.ChannelID_String chid').
  { intros Heq. apply ChannelID_String_eq_inv in Heq. congruence. }
  destruct (NewRequest (datatransfer.ID (chst.ChannelID channel)) true isPull
              (datatransfer.Type_ (chst.Voucher channel)) (chst.Voucher channel)
              (chst.BaseCID channel) (chst.Selector channel)) as [req|err] eqn:Hreq.
  - rewrite (openRestartChannel_run m channel isPull w req Hreq). cbv zeta.
    destruct (if isPull then OpenChannel_result _ _ _ _ _ _ _ else _);
      cbn [snd calls]; rewrite !count_calls_app;
      destruct (transportConfigurers_Processor m _), isPull; cbn;
      rewrite bool_decide_false by exact Htag; lia.
  - rewrite (openRestartChannel_no_request m channel isPull w err Hreq). reflexivity.
Qed.

Lemma keyed_by_ChannelID_lookup
    (s : gmap datatransfer.ChannelID (ChannelState VoucherT NodeT))
    (k : datatransfer.ChannelID) (c : ChannelState VoucherT NodeT) :
  keyed_by_ChannelID s = true -> s !! k = Some c -> chst.ChannelID c = k.
Proof.
  unfold keyed_by_ChannelID. rewrite forallb_forall. intros Hall Hk.
  apply elem_of_map_to_list, list_elem_of_In in Hk.
  apply Hall in Hk. cbn in Hk. now apply bool_decide_eq_true in Hk.
Qed.

(** The channel that an accepted restart request was checked against. *)
Lemma validateRestartRequest_nil_channel m (otherPeer : datatransfer.peer_ID)
    (chid : datatransfer.ChannelID) req w :
  (validateRestartRequest m otherPeer chid req w).1 = None ->
  exists channel,
    store w !! chid = Some channel /\
    datatransfer.Initiator (chst.ChannelID channel) = otherPeer.
Proof.
  unfold validateRestartRequest, mbind, channels_GetByID, GetByID, mreturn.
  destruct (store w !! chid) as [channel|]; cbn; [|discriminate].
  destruct (IsChannelTerminated _); cbn; [discriminate|].
  case_bool_decide as Hinit; cbn; [|discriminate].
  intros _. eauto.
Qed.

(** X10.  Only its initiator can have a channel restarted: when the store
    files every channel under the channel's own id, a restart request that
    [validateRestartRequest] accepts for a channel id comes from the peer
    that the channel id names as initiator. *)
Theorem validateRestartRequest_only_initiator m (otherPeer : datatransfer.peer_ID)
    (chid : datatransfer.ChannelID) req w :
  keyed_by_ChannelID (store w) = true ->
  (validateRestartRequest m otherPeer chid req w).1 = None ->
  datatransfer.Initiator chid = otherPeer.
Proof.
  intros Hkeyed Hnil.
  apply validateRestartRequest_nil_channel in Hnil as (channel & Hget & Hinit).
  apply (keyed_by_ChannelID_lookup _ _ _ Hkeyed) in Hget. congruence.
Qed.

(** X11.  [validateRestartRequest] looks at nothing of the world but the
    channel filed under the given id, and at nothing of that channel but
    whether it is terminated, its initiator, its base CID and its voucher:
    two worlds that agree on these give the same result, whatever else the
    stores hold, however far the transfer has gone and whatever calls were
    made. *)
Theorem validateRestartRequest_reads_view m (otherPeer : datatransfer.peer_ID)
    (chid : datatransfer.ChannelID) req w1 w2 :
  restart_view <$> (store w1 !! chid) = restart_view <$> (store w2 !! chid) ->
  (validateRestartRequest m otherPeer chid req w1).1
  = (validateRestartRequest m otherPeer chid req w2).1.
Proof.
  unfold validateRestartRequest, mbind, channels_GetByID, GetByID, mreturn.
  destruct (store w1 !! chid) as [c1|], (store w2 !! chid) as [c2|]; cbn;
    intros Hview; try discriminate Hview; [|reflexivity].
  unfold restart_view in Hview. injection Hview as Hterm Hinit Hcid Hvoucher.
  rewrite Hterm, Hinit, Hcid, Hvoucher.
  repeat match goal with
         | |- context [if ?b then _ else _] => destruct b
         | |- context [match ?r with Ok _ => _ | Err _ => _ end] => destruct r
         end; reflexivity.
Qed.

End Restart_more_properties.

(** ** More of the restart handshake on the example *)

Section Restart_more_examples.

Import cid encoding channels impl.

(** Restarting transfer 11 makes no [Protect] call under "alice-12". *)
Lemma openRestartChannel_other_tags_witness :
  datatransfer.ChannelID_String example.other_chid = "alice-12"%string /\
  count_calls (is_Protect "alice-12")
    (calls (openPushRestartChannel (example.alice_manager true) example.channel
              example.world).2) = 0.
Proof.
  split; [reflexivity|].
  exact (openRestartChannel_other_tags (example.alice_manager true) example.channel
           false example.world example.other_chid ltac:(discriminate)).
Defined.

(** Bob accepts Alice's restart request for her channel: she is the
    initiator that the channel id names. *)
Lemma validateRestartRequest_only_initiator_witness :
  (validateRestartRequest example.bob_manager example.alice example.chid
     example.restart_request example.world).1 = None /\
  datatransfer.Initiator example.chid = example.alice.
Proof.
  split; [reflexivity|].
  exact (validateRestartRequest_only_initiator example.bob_manager example.alice
           example.chid example.restart_request example.world eq_refl eq_refl).
Defined.

(** The example channel now and later: the same verdict on a restart. *)
Lemma validateRestartRequest_reads_view_witness :
  (validateRestartRequest example.bob_manager example.alice example.chid
     example.restart_request example.world).1
  = (validateRestartRequest example.bob_manager example.alice example.chid
       example.restart_request example.world_later).1.
Proof.
  exact (validateRestartRequest_reads_view example.bob_manager example.alice
           example.chid example.restart_request example.world example.world_later
           eq_refl).
Defined.

End Restart_more_examples.
